(** * rez.utils.memcached: the memcached client wrapper

    A shallow embedding of [src/rez/utils/memcached.py] (class [Client]):
    key qualification, key hashing (plain and debug), the tagged-pair
    entries stored in the remote store, lookups with the distinguished miss
    result, and soft/hard flushing. *)

From Stdlib Require Import ZArith List Ascii String Lia.
From stdpp Require Import base gmap strings.
Import ListNotations.

Local Open Scope string_scope.

(** ** hashlib.md5

    [memcached.py] imports [md5] from Python's [hashlib]; [Client._key_hash]
    is [md5(key).hexdigest()].  The digest is modelled after RFC 1321 on
    32-bit words carried in [Z], every addition and rotation wrapped to 32
    bits.  A Python 2 [str] is a byte string: a [string] of 8-bit [ascii]. *)
Module MD5.

Local Open Scope Z_scope.

Definition mask32 : Z := 0xffffffff.

Definition add32 (x y : Z) : Z := Z.land (x + y) mask32.

Definition not32 (x : Z) : Z := Z.lxor x mask32.

Definition rotl32 (x n : Z) : Z :=
  Z.land (Z.lor (Z.shiftl x n) (Z.shiftr x (32 - n))) mask32.

Definition F (x y z : Z) : Z := Z.lor (Z.land x y) (Z.land (not32 x) z).
Definition G (x y z : Z) : Z := Z.lor (Z.land x z) (Z.land y (not32 z)).
Definition H (x y z : Z) : Z := Z.lxor x (Z.lxor y z).
Definition I (x y z : Z) : Z := Z.lxor y (Z.lor x (not32 z)).

(** Per-round left-rotation amounts. *)
Definition shifts : list Z :=
  [ 7; 12; 17; 22; 7; 12; 17; 22; 7; 12; 17; 22; 7; 12; 17; 22;
    5;  9; 14; 20; 5;  9; 14; 20; 5;  9; 14; 20; 5;  9; 14; 20;
    4; 11; 16; 23; 4; 11; 16; 23; 4; 11; 16; 23; 4; 11; 16; 23;
    6; 10; 15; 21; 6; 10; 15; 21; 6; 10; 15; 21; 6; 10; 15; 21 ].

(** [sines !! i] is the integer part of [2^32 * abs (sin (i + 1))]. *)
Definition sines : list Z :=
  [ 0xd76aa478; 0xe8c7b756; 0x242070db; 0xc1bdceee;
    0xf57c0faf; 0x4787c62a; 0xa8304613; 0xfd469501;
    0x698098d8; 0x8b44f7af; 0xffff5bb1; 0x895cd7be;
    0x6b901122; 0xfd987193; 0xa679438e; 0x49b40821;
    0xf61e2562; 0xc040b340; 0x265e5a51; 0xe9b6c7aa;
    0xd62f105d; 0x02441453; 0xd8a1e681; 0xe7d3fbc8;
    0x21e1cde6; 0xc33707d6; 0xf4d50d87; 0x455a14ed;
    0xa9e3e905; 0xfcefa3f8; 0x676f02d9; 0x8d2a4c8a;
    0xfffa3942; 0x8771f681; 0x6d9d6122; 0xfde5380c;
    0xa4beea44; 0x4bdecfa9; 0xf6bb4b60; 0xbebfbc70;
    0x289b7ec6; 0xeaa127fa; 0xd4ef3085; 0x04881d05;
    0xd9d4d039; 0xe6db99e5; 0x1fa27cf8; 0xc4ac5665;
    0xf4292244; 0x432aff97; 0xab9423a7; 0xfc93a039;
    0x655b59c3; 0x8f0ccc92; 0xffeff47d; 0x85845dd1;
    0x6fa87e4f; 0xfe2ce6e0; 0xa3014314; 0x4e0811a1;
    0xf7537e82; 0xbd3af235; 0x2ad7d2bb; 0xeb86d391 ].

(** The four chaining words A, B, C, D. *)
Record state := State { wa : Z; wb : Z; wc : Z; wd : Z }.

Definition init : state :=
  State 0x67452301 0xefcdab89 0x98badcfe 0x10325476.

(** One of the 64 steps on the 16 message words [M] of a block. *)
Definition step (M : list Z) (st : state) (i : nat) : state :=
  let '(State a b c d) := st in
  let j := Z.of_nat i in
  let '(f, g) :=
    if j <? 16 then (F b c d, j)
    else if j <? 32 then (G b c d, (5 * j + 1) mod 16)
    else if j <? 48 then (H b c d, (3 * j + 5) mod 16)
    else (I b c d, (7 * j) mod 16) in
  let t := add32 (add32 (add32 a f) (nth i sines 0)) (nth (Z.to_nat g) M 0) in
  State d (add32 b (rotl32 t (nth i shifts 0))) b c.

Definition compress (st : state) (M : list Z) : state :=
  let r := fold_left (step M) (seq 0 64) st in
  State (add32 (wa st) (wa r)) (add32 (wb st) (wb r))
        (add32 (wc st) (wc r)) (add32 (wd st) (wd r)).

Definition bytes_of_string (s : string) : list Z :=
  map (fun c => Z.of_N (N_of_ascii c)) (list_ascii_of_string s).

(** Little-endian bytes of the low [8 * n] bits of [x]. *)
Fixpoint le_bytes (n : nat) (x : Z) : list Z :=
  match n with
  | O => []
  | S n' => Z.land x 0xff :: le_bytes n' (Z.shiftr x 8)
  end.

(** Message, one 1 bit, zeros up to 56 mod 64, then the bit length on 64
    bits. *)
Definition pad (msg : list Z) : list Z :=
  let len := Z.of_nat (List.length msg) in
  let zeros := Z.to_nat ((55 - len) mod 64) in
  msg ++ [0x80] ++ repeat 0 zeros ++ le_bytes 8 (Z.land (8 * len) 0xffffffffffffffff).

(** Consecutive little-endian 32-bit words of a byte list. *)
Fixpoint words (n : nat) (bs : list Z) : list Z :=
  match n with
  | O => []
  | S n' =>
      match bs with
      | b0 :: b1 :: b2 :: b3 :: rest =>
          (b0 + Z.shiftl b1 8 + Z.shiftl b2 16 + Z.shiftl b3 24) :: words n' rest
      | _ => []
      end
  end.

(** The padded message cut in [n] blocks of 64 bytes. *)
Fixpoint blocks (n : nat) (bs : list Z) : list (list Z) :=
  match n with
  | O => []
  | S n' => words 16 (firstn 64 bs) :: blocks n' (skipn 64 bs)
  end.

Definition digest (s : string) : state :=
  let padded := pad (bytes_of_string s) in
  fold_left compress (blocks (Nat.div (List.length padded) 64) padded) init.

Definition hex_digit (x : Z) : ascii :=
  if x <? 10 then ascii_of_N (Z.to_N (48 + x))
  else ascii_of_N (Z.to_N (87 + x)).

Definition hex_byte (b : Z) : string :=
  String (hex_digit (Z.shiftr b 4)) (String (hex_digit (Z.land b 0xf)) EmptyString).

Definition hex_word (w : Z) : string :=
  String.concat "" (map hex_byte (le_bytes 4 w)).

(** [md5(s).hexdigest()]: 16 digest bytes as lowercase hex. *)
Definition hexdigest (s : string) : string :=
  let st := digest s in
  hex_word (wa st) +:+ hex_word (wb st) +:+ hex_word (wc st) +:+ hex_word (wd st).

End MD5.

(** ** Python values

    The values that travel through the cache: what [set] is given, what the
    native client pickles into the store and what it hands back. *)
#[warnings="-register-all"] Inductive pyobj : Type :=
  | PyNone
  | PyBool (b : bool)
  | PyInt (z : Z)
  | PyStr (s : string)
  | PyTuple (items : list pyobj)
  | PyList (items : list pyobj).

(** [obj == s] for a [str] [s]. *)
Definition py_eq_str (obj : pyobj) (s : string) : bool :=
  match obj with
  | PyStr s' => String.eqb s' s
  | _ => false
  end.

(** ** The remote store and the native client

    Modelled from the spec: the vendored [rez.vendor.memcache.memcache]
    module ([Client_] in [memcached.py]) is not part of the sources at hand.
    The spec takes it as an off-the-shelf client of a remote key-value store
    with get, set, delete, flush_all and stats as atomic operations.  The
    store is a finite map from physical keys to values, together with the
    commands it has received, oldest first.  Expiry, eviction and
    compression are the store's own business and are not modelled: an entry
    stays until it is overwritten, deleted or flushed.  [get] of an absent
    key answers [None], as the docstring of [Client.get] says of
    [memcache.Client]. *)
Inductive command : Type :=
  | CmdSet (key : string) (val : pyobj) (time min_compress_len : Z)
  | CmdGet (key : string)
  | CmdDelete (key : string)
  | CmdFlushAll
  | CmdStats (stat_args : option string).

Record Store := mkStore {
  entries : gmap string pyobj;
  traffic : list command
}.

Definition empty_store : Store := mkStore ∅ [].

Module Client_.

(** A connection handle: the servers it talks to. *)
Record t := connect { servers : list string }.

Definition set (cl : t) (st : Store) (key : string) (val : pyobj)
    (time min_compress_len : Z) : Store :=
  mkStore (<[key := val]> (entries st))
          (traffic st ++ [CmdSet key val time min_compress_len]).

Definition get (cl : t) (st : Store) (key : string) : pyobj * Store :=
  (default PyNone (entries st !! key),
   mkStore (entries st) (traffic st ++ [CmdGet key])).

Definition delete (cl : t) (st : Store) (key : string) : Store :=
  mkStore (base.delete key (entries st)) (traffic st ++ [CmdDelete key]).

Definition flush_all (cl : t) (st : Store) : Store :=
  mkStore ∅ (traffic st ++ [CmdFlushAll]).

(** Only the request is recorded; the counters a server answers with are
    not modelled. *)
Definition get_stats (cl : t) (st : Store) (stat_args : option string) : Store :=
  mkStore (entries st) (traffic st ++ [CmdStats stat_args]).

End Client_.

(** ** re.sub("[^0-9a-zA-Z]+", '_', value) *)

Definition is_alnum (c : ascii) : bool :=
  let n := nat_of_ascii c in
  ((48 <=? n) && (n <=? 57) || (65 <=? n) && (n <=? 90)
   || (97 <=? n) && (n <=? 122))%nat.

(** Leftmost, greedy, non-overlapping: every maximal run of characters outside
    [0-9a-zA-Z] becomes one underscore.  [in_run] tells that the run the
    scan is in has already been replaced. *)
Fixpoint collapse (in_run : bool) (s : string) : string :=
  match s with
  | EmptyString => EmptyString
  | String c rest =>
      if is_alnum c then String c (collapse false rest)
      else if in_run then collapse true rest
      else String "_" (collapse true rest)
  end.

Definition re_sub_nonalnum (value : string) : string := collapse false value.

(** Letters, digits and underscores only: what [re.sub] leaves. *)
Fixpoint key_chars (s : string) : bool :=
  match s with
  | EmptyString => true
  | String c rest => (is_alnum c || Ascii.eqb c "_") && key_chars rest
  end.

(** ** class Client *)
Module Memcached.

Section Client.

(** [from rez import __version__]: the release identifier of the calling
    software; not part of the sources at hand. *)
Variable __version__ : string.

(** [SERVER_MAX_KEY_LENGTH] of the vendored memcache module; not part of
    the sources at hand. *)
Variable SERVER_MAX_KEY_LENGTH : nat.

(** What [get] returns: a cached value, or [Client.miss]. *)
Inductive lookup : Type :=
  | miss
  | hit (result : pyobj).

Record Client := mkClient {
  servers : list string;
  key_hasher : string -> string;
  _client : option Client_.t;
  debug : bool;
  current : string
}.

Definition _key_hash (key : string) : string := MD5.hexdigest key.

Definition _debug_key_hash (key : string) : string :=
  let h := substring 0 16 (_key_hash key) in
  let value := h +:+ ":" +:+ key in
  let value := substring 0 SERVER_MAX_KEY_LENGTH value in
  let value := re_sub_nonalnum value in
  value.

(** [servers] is one URI or a list of them. *)
Definition __init__ (servers : string + list string) (debug : bool) : Client :=
  {| servers := match servers with inl uri => [uri] | inr uris => uris end;
     key_hasher := if debug then _debug_key_hash else _key_hash;
     _client := None;
     debug := debug;
     current := "" |}.

(** [__nonzero__] *)
Definition __nonzero__ (self : Client) : bool :=
  match servers self with [] => false | _ => true end.

(** The [client] property: the native client, created on first use. *)
Definition client (self : Client) : Client_.t * Client :=
  match _client self with
  | Some cl => (cl, self)
  | None =>
      let cl := Client_.connect (servers self) in
      (cl, mkClient (servers self) (key_hasher self) (Some cl) (debug self) (current self))
  end.

Definition _qualified_key (self : Client) (key : string) : string :=
  __version__ +:+ ":" +:+ current self +:+ ":" +:+ key.

Definition set (self : Client) (st : Store) (key : string) (val : pyobj)
    (time min_compress_len : Z) : Client * Store :=
  let key := _qualified_key self key in
  let hashed_key := key_hasher self key in
  let val := PyTuple [PyStr key; val] in
  let '(cl, self) := client self in
  (self, Client_.set cl st hashed_key val time min_compress_len).

Definition get (self : Client) (st : Store) (key : string) : lookup * (Client * Store) :=
  let key := _qualified_key self key in
  let hashed_key := key_hasher self key in
  let '(cl, self) := client self in
  let '(entry, st) := Client_.get cl st hashed_key in
  match entry with
  | PyTuple [key_; result] =>
      if py_eq_str key_ key then (hit result, (self, st)) else (miss, (self, st))
  | _ => (miss, (self, st))
  end.

Definition delete (self : Client) (st : Store) (key : string) : Client * Store :=
  let key := _qualified_key self key in
  let hashed_key := key_hasher self key in
  let '(cl, self) := client self in
  (self, Client_.delete cl st hashed_key).

Definition _get_stats (self : Client) (st : Store) (stat_args : option string)
    : Client * Store :=
  let '(cl, self) := client self in
  (self, Client_.get_stats cl st stat_args).

Definition get_stats (self : Client) (st : Store) : Client * Store :=
  _get_stats self st None.

Definition reset_stats (self : Client) (st : Store) : Client * Store :=
  _get_stats self st (Some "reset").

(** [uuid4_hex] is what [uuid4().hex] answers when the soft branch asks
    for it. *)
Definition flush (self : Client) (st : Store) (hard : bool) (uuid4_hex : string)
    : Client * Store :=
  if hard then
    let '(cl, self) := client self in
    let st := Client_.flush_all cl st in
    reset_stats self st
  else
    let tag := uuid4_hex in
    let tag := if debug self then "flushed" +:+ tag else tag in
    (mkClient (servers self) (key_hasher self) (_client self) (debug self) tag, st).

(** The key [set], [get] and [delete] send to the store for [key]. *)
Definition physical_key (self : Client) (key : string) : string :=
  key_hasher self (_qualified_key self key).

(** A run of calls to [set] with the default expiry and compression
    arguments, first pair first. *)
Fixpoint set_all (self : Client) (st : Store) (pairs : list (string * pyobj))
    : Client * Store :=
  match pairs with
  | [] => (self, st)
  | (key, val) :: rest =>
      let '(self, st) := set self st key val 0 0 in
      set_all self st rest
  end.

(** ** Generation tags

    A tag is the empty string of a new client or comes from [uuid4().hex],
    with ["flushed"] in front in debug mode: it never holds a colon. *)
Fixpoint colon_free (s : string) : bool :=
  match s with
  | EmptyString => true
  | String c rest => negb (Ascii.eqb c ":") && colon_free rest
  end.

(** 32 lowercase hexadecimal digits, the shape of [uuid4().hex]. *)
Definition is_hex_digit (c : ascii) : bool :=
  let n := nat_of_ascii c in
  ((48 <=? n) && (n <=? 57) || (97 <=? n) && (n <=? 102))%nat.

Fixpoint all_hex (s : string) : bool :=
  match s with
  | EmptyString => true
  | String c rest => is_hex_digit c && all_hex rest
  end.

Definition is_uuid4_hex (s : string) : bool :=
  (String.length s =? 32)%nat && all_hex s.

(** The tag [flush] installs when [uuid4().hex] answers [uuid4_hex]. *)
Definition soft_tag (self : Client) (uuid4_hex : string) : string :=
  if debug self then "flushed" +:+ uuid4_hex else uuid4_hex.

(** No entry of the store was written under generation [tag]. *)
Definition generation_unused (tag : string) (st : Store) : Prop :=
  forall (pk k : string) (v : pyobj),
    entries st !! pk
      <> Some (PyTuple [PyStr (__version__ +:+ ":" +:+ tag +:+ ":" +:+ k); v]).

(** The shape [re.sub] leaves: no two underscores in a row.  [after_us]
    tells that the character before was an underscore. *)
Fixpoint single_underscores (after_us : bool) (s : string) : bool :=
  match s with
  | EmptyString => true
  | String c rest =>
      if Ascii.eqb c "_" then negb after_us && single_underscores true rest
      else single_underscores false rest
  end.

(** The native client of [self] is the one [client] would make, if it was
    made at all. *)
Definition connection_ok (self : Client) : Prop :=
  _client self = None \/ _client self = Some (Client_.connect (servers self)).

(** Two handles agree on everything but the generation tag and the native
    client. *)
Definition same_configuration (a b : Client) : Prop :=
  servers a = servers b /\ key_hasher a = key_hasher b /\ debug a = debug b.

(** ** def memcached: the memoization decorator

    A call's positional and keyword arguments, and what the wrapped function
    hands back: a value, or a value inside [DoNotCache].  The callables the
    user supplies ([func], [key], [from_cache], [to_cache]) are taken as they
    return; an exception one of them raises passes through [wrapper], which
    has no handler, and is not modelled.  [func] may act on a world of its
    own, [W]. *)
Record arguments := mkArguments {
  nargs : list pyobj;
  kwargs : gmap string pyobj
}.

Inductive returned : Type :=
  | Value (result : pyobj)
  | DoNotCache (result : pyobj).

(** [bool(servers)] for one URI or a list of them. *)
Definition servers_truth (servers : string + list string) : bool :=
  match servers with
  | inl uri => negb (String.eqb uri "")
  | inr [] => false
  | inr (_ :: _) => true
  end.

Definition identity (value : pyobj) (args : arguments) : pyobj := value.

Section Decorator.

Variable W : Type.

(** [default_key] on [func] and the call's arguments: the printed form of the function's
    dotted name and its arguments.  [repr] of Python values is not modelled;
    the key it gives is taken as it is. *)
Variable default_key : arguments -> string.

Variable servers : string + list string.
Variable key : option (arguments -> string).
Variable from_cache : option (pyobj -> arguments -> pyobj).
Variable to_cache : option (pyobj -> arguments -> pyobj).
Variable time : Z.
Variable min_compress_len : Z.
Variable func : arguments -> W -> returned * W.

(** The key function on the call's arguments if one was given, else the
    default key. *)
Definition cache_key (args : arguments) : string :=
  match key with
  | Some key => key args
  | None => default_key args
  end.

(** [wrapper], on the client the decorator owns. *)
Definition wrapper (args : arguments) (client : Client) (st : Store) (w : W)
    : returned * (Client * Store * W) :=
  let from_cache := default identity from_cache in
  let to_cache := default identity to_cache in
  if servers_truth servers then
    let cache_key := cache_key args in
    let '(result, (client, st)) := get client st cache_key in
    match result with
    | hit result => (Value (from_cache result args), (client, st, w))
    | miss =>
        let '(result, w) := func args w in
        match result with
        | DoNotCache result => (Value result, (client, st, w))
        | Value result =>
            let cache_result := to_cache result args in
            let '(client, st) :=
              set client st cache_key cache_result time min_compress_len in
            (Value result, (client, st, w))
        end
    end
  else
    let '(result, w) := func args w in
    (result, (client, st, w)).

End Decorator.

(** [wrapper.forget()]: [client.flush()], a soft flush. *)
Definition forget (client : Client) (st : Store) (uuid4_hex : string)
    : Client * Store :=
  flush client st false uuid4_hex.

(** What a caller gets from [func] once [wrapper] has unwrapped it. *)
Definition unwrapped (r : returned) : pyobj :=
  match r with
  | Value result => result
  | DoNotCache result => result
  end.

(** ** Strings *)

Lemma length_app (a b : string) :
  String.length (a +:+ b) = String.length a + String.length b.
Proof. induction a as [|c a IH]; simpl; [reflexivity | now rewrite IH]. Qed.

Lemma length_prefix_le (n : nat) (s : string) :
  String.length (substring 0 n s) <= n.
Proof.
  revert s; induction n as [|n IH]; intros [|c s]; simpl; try lia.
  specialize (IH s); lia.
Qed.

Lemma length_collapse_le (in_run : bool) (s : string) :
  String.length (collapse in_run s) <= String.length s.
Proof.
  revert in_run; induction s as [|c s IH]; intros in_run; simpl; [lia|].
  destruct (is_alnum c); simpl; [specialize (IH false); lia|].
  destruct in_run; simpl; specialize (IH true); lia.
Qed.

(** The first colon of [tag:key] ends the tag. *)
Lemma tag_key_inj (t1 t2 k1 k2 : string) :
  colon_free t1 = true -> colon_free t2 = true ->
  t1 +:+ ":" +:+ k1 = t2 +:+ ":" +:+ k2 -> t1 = t2 /\ k1 = k2.
Proof.
  revert t2; induction t1 as [|c t1 IH]; intros [|d t2]; simpl; intros H1 H2 E.
  - now inversion E.
  - inversion E; subst d. now rewrite Ascii.eqb_refl in H2.
  - inversion E; subst c. now rewrite Ascii.eqb_refl in H1.
  - apply andb_prop in H1 as [_ H1]. apply andb_prop in H2 as [_ H2].
    inversion E; subst d. destruct (IH t2 H1 H2) as [-> ->]; auto.
Qed.

Lemma same_key_tag_inj (t1 t2 k : string) :
  t1 +:+ ":" +:+ k = t2 +:+ ":" +:+ k -> t1 = t2.
Proof.
  revert t2; induction t1 as [|c t1 IH]; intros [|d t2]; simpl; intros E;
    try reflexivity.
  - apply (f_equal String.length) in E; simpl in E.
    rewrite !length_app in E; simpl in E. lia.
  - apply (f_equal String.length) in E; simpl in E.
    rewrite !length_app in E; simpl in E. lia.
  - inversion E. f_equal. now apply IH.
Qed.

(** ** The native client, created on first use *)

Lemma client_fields (self : Client) :
  servers (snd (client self)) = servers self
  /\ key_hasher (snd (client self)) = key_hasher self
  /\ debug (snd (client self)) = debug self
  /\ current (snd (client self)) = current self.
Proof. unfold client; destruct (_client self); simpl; auto. Qed.

Lemma same_physical_key (self other : Client) (k : string) :
  current other = current self -> key_hasher other = key_hasher self ->
  _qualified_key other k = _qualified_key self k
  /\ physical_key other k = physical_key self k.
Proof.
  intros Hc Hh. unfold physical_key, _qualified_key. now rewrite Hc, Hh.
Qed.

(** ** What each method does to the store *)

Lemma set_store (self : Client) (st : Store) (k : string) (v : pyobj) (t m : Z) :
  snd (set self st k v t m) =
    mkStore (<[physical_key self k := PyTuple [PyStr (_qualified_key self k); v]]>
               (entries st))
            (traffic st ++
               [CmdSet (physical_key self k)
                       (PyTuple [PyStr (_qualified_key self k); v]) t m]).
Proof. unfold set, client; destruct (_client self); reflexivity. Qed.

Lemma set_client (self : Client) (st : Store) (k : string) (v : pyobj) (t m : Z) :
  fst (set self st k v t m) = snd (client self).
Proof. unfold set; destruct (client self); reflexivity. Qed.

Lemma get_store (self : Client) (st : Store) (k : string) :
  snd (snd (get self st k)) =
    mkStore (entries st) (traffic st ++ [CmdGet (physical_key self k)]).
Proof.
  unfold get, client, Client_.get, physical_key.
  destruct (_client self); simpl;
    destruct (default PyNone _) as [| | | |[|? [|? [|? ?]]]|]; simpl;
    try reflexivity; destruct (py_eq_str _ _); reflexivity.
Qed.

Lemma delete_store (self : Client) (st : Store) (k : string) :
  snd (delete self st k) =
    mkStore (base.delete (physical_key self k) (entries st))
            (traffic st ++ [CmdDelete (physical_key self k)]).
Proof. unfold delete, client; destruct (_client self); reflexivity. Qed.

Lemma flush_soft (self : Client) (st : Store) (uuid4_hex : string) :
  flush self st false uuid4_hex =
    (mkClient (servers self) (key_hasher self) (_client self) (debug self)
              (soft_tag self uuid4_hex), st).
Proof. reflexivity. Qed.

Lemma flush_hard_store (self : Client) (st : Store) (uuid4_hex : string) :
  snd (flush self st true uuid4_hex) =
    mkStore ∅ (traffic st ++ [CmdFlushAll; CmdStats (Some "reset")]).
Proof.
  unfold flush, reset_stats, _get_stats, client, Client_.get_stats, Client_.flush_all.
  destruct self as [sv kh [cl|] dbg cur]; simpl; now rewrite <- List.app_assoc.
Qed.

(** ** Lookups *)

(** [get] reads one entry and answers from it alone. *)
Lemma get_result (self : Client) (st : Store) (k : string) :
  fst (get self st k) =
    match entries st !! physical_key self k with
    | Some (PyTuple [key_; result]) =>
        if py_eq_str key_ (_qualified_key self k) then hit result else miss
    | _ => miss
    end.
Proof.
  unfold get, client, Client_.get, physical_key.
  destruct (_client self); simpl;
    destruct (entries st !! _) as [[| | | |[|? [|? [|? ?]]]|]|]; simpl;
    try reflexivity; destruct (py_eq_str _ _); reflexivity.
Qed.

Lemma get_hit_iff (self : Client) (st : Store) (k : string) (v : pyobj) :
  fst (get self st k) = hit v <->
  entries st !! physical_key self k
    = Some (PyTuple [PyStr (_qualified_key self k); v]).
Proof.
  rewrite get_result. split.
  - destruct (entries st !! _) as [[| | | |[|key_ [|r [|? ?]]]|]|];
      try discriminate.
    destruct key_ as [| | |s| |]; simpl; try discriminate.
    destruct (String.eqb_spec s (_qualified_key self k)); [|discriminate].
    intros [= ->]. now subst s.
  - intros ->. simpl. now rewrite String.eqb_refl.
Qed.

(** [get] after [set], through any handle that has the tag and the hasher
    of the one that wrote. *)
Lemma get_set_same_generation (self other : Client) (st : Store) (k : string)
    (v : pyobj) :
  current other = current self -> key_hasher other = key_hasher self ->
  fst (get other (snd (set self st k v 0 0)) k) = hit v.
Proof.
  intros Hc Hh. apply get_hit_iff.
  destruct (same_physical_key self other k Hc Hh) as [-> ->].
  rewrite set_store; simpl. apply lookup_insert_eq.
Qed.

(** Nothing was written under the tag of [self]: every lookup misses. *)
Lemma get_miss_unused (self : Client) (st : Store) (k : string) :
  generation_unused (current self) st -> fst (get self st k) = miss.
Proof.
  intros Hun. destruct (fst (get self st k)) as [|r] eqn:E; [reflexivity|].
  apply get_hit_iff in E. now apply Hun in E.
Qed.

(** ** Generations along a run *)

Lemma generation_unused_empty (tag : string) : generation_unused tag empty_store.
Proof. intros pk k v. simpl. now rewrite lookup_empty. Qed.

Lemma generation_unused_set (self : Client) (st : Store) (k : string) (v : pyobj)
    (t m : Z) (tag : string) :
  colon_free (current self) = true -> colon_free tag = true ->
  tag <> current self ->
  generation_unused tag st ->
  generation_unused tag (snd (set self st k v t m)).
Proof.
  intros Hcur Htag Hne Hun pk k' v'. rewrite set_store; simpl.
  destruct (decide (physical_key self k = pk)) as [->|Hpk].
  - rewrite lookup_insert_eq. intros [= E _]. unfold _qualified_key in E.
    apply (inj (String.app __version__)) in E. simpl in E.
    injection E as E. apply tag_key_inj in E as [E _]; auto.
  - rewrite lookup_insert_ne by exact Hpk. apply Hun.
Qed.

Lemma generation_unused_get (self : Client) (st : Store) (k tag : string) :
  generation_unused tag st -> generation_unused tag (snd (snd (get self st k))).
Proof. intros Hun pk k' v'. rewrite get_store; simpl. apply Hun. Qed.

Lemma generation_unused_delete (self : Client) (st : Store) (k tag : string) :
  generation_unused tag st -> generation_unused tag (snd (delete self st k)).
Proof.
  intros Hun pk k' v'. rewrite delete_store; simpl.
  destruct (decide (physical_key self k = pk)) as [->|Hpk].
  - now rewrite lookup_delete_eq.
  - rewrite lookup_delete_ne by exact Hpk. apply Hun.
Qed.

Lemma generation_unused_flush (self : Client) (st : Store) (hard : bool)
    (uuid4_hex tag : string) :
  generation_unused tag st ->
  generation_unused tag (snd (flush self st hard uuid4_hex)).
Proof.
  intros Hun. destruct hard.
  - intros pk k' v'. rewrite flush_hard_store; simpl. now rewrite lookup_empty.
  - exact Hun.
Qed.

(** ** The shape of tags *)

Lemma all_hex_colon_free (s : string) : all_hex s = true -> colon_free s = true.
Proof.
  induction s as [|c s IH]; simpl; [reflexivity|].
  intros H. apply andb_prop in H as [Hc Hs]. rewrite (IH Hs), andb_true_r.
  destruct (Ascii.eqb_spec c ":") as [->|_]; [discriminate Hc | reflexivity].
Qed.

Lemma soft_tag_colon_free (self : Client) (uuid4_hex : string) :
  is_uuid4_hex uuid4_hex = true -> colon_free (soft_tag self uuid4_hex) = true.
Proof.
  intros H. apply andb_prop in H as [_ H]. apply all_hex_colon_free in H.
  unfold soft_tag. destruct (debug self); simpl; exact H.
Qed.

Lemma soft_tag_not_initial (self : Client) (uuid4_hex : string) :
  is_uuid4_hex uuid4_hex = true -> soft_tag self uuid4_hex <> "".
Proof.
  intros H. apply andb_prop in H as [H _]. apply Nat.eqb_eq in H.
  unfold soft_tag. destruct (debug self); [discriminate|].
  intros ->. discriminate H.
Qed.

(** The tag of a client stays colon free from [__init__] on. *)
Lemma init_colon_free (servers : string + list string) (dbg : bool) :
  colon_free (current (__init__ servers dbg)) = true.
Proof. reflexivity. Qed.

Lemma flush_colon_free (self : Client) (st : Store) (hard : bool) (uuid4_hex : string) :
  colon_free (current self) = true -> is_uuid4_hex uuid4_hex = true ->
  colon_free (current (fst (flush self st hard uuid4_hex))) = true.
Proof.
  intros Hcur Hu. destruct hard.
  - unfold flush, reset_stats, _get_stats, client.
    destruct self as [sv kh [cl|] dbg cur]; simpl in *; exact Hcur.
  - rewrite flush_soft; simpl. now apply soft_tag_colon_free.
Qed.

(** ** Key hashing *)

Lemma length_hex_word (w : Z) : String.length (MD5.hex_word w) = 8.
Proof. reflexivity. Qed.

(** An MD5 hex digest has 32 characters, whatever was hashed. *)
Lemma length_md5_hexdigest (s : string) : String.length (MD5.hexdigest s) = 32.
Proof.
  unfold MD5.hexdigest. generalize (MD5.digest s) as d; intros d; cbv zeta.
  now rewrite !length_app, !length_hex_word.
Qed.

Lemma length_key_hash (key : string) : String.length (_key_hash key) = 32.
Proof. apply length_md5_hexdigest. Qed.

Lemma length_debug_key_hash (key : string) :
  String.length (_debug_key_hash key) <= SERVER_MAX_KEY_LENGTH.
Proof.
  unfold _debug_key_hash, re_sub_nonalnum.
  etransitivity; [apply length_collapse_le | apply length_prefix_le].
Qed.

Lemma collapse_key_chars (in_run : bool) (s : string) :
  key_chars (collapse in_run s) = true.
Proof.
  revert in_run; induction s as [|c s IH]; intros in_run; simpl; [reflexivity|].
  destruct (is_alnum c) eqn:Hc; simpl.
  - now rewrite Hc, IH.
  - destruct in_run; simpl; now rewrite ?IH.
Qed.

Lemma debug_key_hash_chars (key : string) : key_chars (_debug_key_hash key) = true.
Proof. apply collapse_key_chars. Qed.

Lemma all_hex_app (a b : string) :
  all_hex (a +:+ b) = all_hex a && all_hex b.
Proof.
  induction a as [|c a IH]; simpl; [reflexivity|]. now rewrite IH, andb_assoc.
Qed.

Lemma hex_digit_is_hex (d : Z) :
  (0 <= d < 16)%Z -> is_hex_digit (MD5.hex_digit d) = true.
Proof.
  intros Hd.
  assert (Hcases : In d [0; 1; 2; 3; 4; 5; 6; 7; 8; 9; 10; 11; 12; 13; 14; 15]%Z).
  { simpl. lia. }
  simpl in Hcases.
  repeat (destruct Hcases as [<-|Hcases]; [reflexivity|]). contradiction.
Qed.

Lemma hex_byte_is_hex (x : Z) : all_hex (MD5.hex_byte (Z.land x 0xff)) = true.
Proof.
  unfold MD5.hex_byte; simpl all_hex.
  change 0xff%Z with (Z.ones 8). change 0xf%Z with (Z.ones 4).
  rewrite !Z.land_ones, Z.shiftr_div_pow2 by lia.
  rewrite !hex_digit_is_hex; [reflexivity| |].
  - apply Z.mod_pos_bound. lia.
  - pose proof (Z.mod_pos_bound x (2 ^ 8) ltac:(lia)) as Hx.
    split; [apply Z.div_pos; lia | apply Z.div_lt_upper_bound; lia].
Qed.

Lemma hex_word_is_hex (w : Z) : all_hex (MD5.hex_word w) = true.
Proof.
  unfold MD5.hex_word. cbn [MD5.le_bytes map String.concat].
  now rewrite !all_hex_app, !hex_byte_is_hex.
Qed.

(** [md5(key).hexdigest()] is 32 lowercase hexadecimal digits. *)
Lemma key_hash_hex (key : string) :
  String.length (_key_hash key) = 32 /\ all_hex (_key_hash key) = true.
Proof.
  split; [apply length_key_hash|].
  unfold _key_hash, MD5.hexdigest. generalize (MD5.digest key) as d; intros d.
  cbv zeta. now rewrite !all_hex_app, !hex_word_is_hex.
Qed.

(** The two hashers a client can be built with. *)
Lemma key_hasher_modes (servers : string + list string) (qualified : string) :
  key_hasher (__init__ servers false) qualified = MD5.hexdigest qualified
  /\ key_hasher (__init__ servers true) qualified
       = re_sub_nonalnum
           (substring 0 SERVER_MAX_KEY_LENGTH
              (substring 0 16 (MD5.hexdigest qualified) +:+ ":" +:+ qualified))
  /\ key_chars (key_hasher (__init__ servers true) qualified) = true.
Proof. repeat split. apply debug_key_hash_chars. Qed.

(** ** Runs of sets *)

Lemma set_all_current (self : Client) (st : Store) (pairs : list (string * pyobj)) :
  current (fst (set_all self st pairs)) = current self
  /\ debug (fst (set_all self st pairs)) = debug self.
Proof.
  revert self st; induction pairs as [|[k v] rest IH]; intros self st; simpl; [auto|].
  pose proof (set_client self st k v 0 0) as Hself.
  destruct (client_fields self) as (_ & _ & Hd & Hc).
  destruct (set self st k v 0 0) as [self1 st1]; simpl in Hself; subst self1.
  destruct (IH (snd (client self)) st1) as [-> ->]. auto.
Qed.

Lemma generation_unused_set_all (self : Client) (st : Store)
    (pairs : list (string * pyobj)) (tag : string) :
  colon_free (current self) = true -> colon_free tag = true ->
  tag <> current self ->
  generation_unused tag st ->
  generation_unused tag (snd (set_all self st pairs)).
Proof.
  revert self st; induction pairs as [|[k v] rest IH]; intros self st Hc Ht Hne Hun;
    simpl; [exact Hun|].
  pose proof (set_client self st k v 0 0) as Hself.
  pose proof (generation_unused_set self st k v 0 0 tag Hc Ht Hne Hun) as Hun1.
  destruct (client_fields self) as (_ & _ & _ & Hcur).
  destruct (set self st k v 0 0) as [self1 st1]; simpl in Hself, Hun1; subst self1.
  apply IH; auto; now rewrite Hcur.
Qed.

(** X18. A new client writes to an empty store, then flushes softly:
    whatever 32 hexadecimal digits [uuid4().hex] answers, no key is seen any
    more and the store is as it was. *)
Corollary new_client_soft_flush (servers : string + list string) (dbg : bool)
    (pairs : list (string * pyobj)) (uuid4_hex : string) :
  is_uuid4_hex uuid4_hex = true ->
  let '(self1, st1) := set_all (__init__ servers dbg) empty_store pairs in
  let '(self2, st2) := flush self1 st1 false uuid4_hex in
  st2 = st1 /\ forall k : string, fst (get self2 st2 k) = miss.
Proof.
  intros Hu. set (self := __init__ servers dbg).
  destruct (set_all_current self empty_store pairs) as [Hc Hd].
  pose proof (generation_unused_set_all self empty_store pairs
                (soft_tag self uuid4_hex) (init_colon_free servers dbg)
                (soft_tag_colon_free self uuid4_hex Hu)
                (soft_tag_not_initial self uuid4_hex Hu)
                (generation_unused_empty _)) as Hun.
  destruct (set_all self empty_store pairs) as [self1 st1]; cbn [fst snd] in *.
  rewrite flush_soft. split; [reflexivity|].
  intros k. apply get_miss_unused; simpl.
  unfold soft_tag in *. now rewrite Hd.
Qed.

(** ** The claims *)

(** C1. [get(k)] after [set(k, v)], with the same namespace version and
    generation tag and no flush in between, returns exactly [v], for every
    key and every value, [None] included.  [get] returns the miss
    sentinel when the store has no entry at the physical key, and when
    the entry there embeds a qualified key other than the one of this
    lookup: a hash collision is a miss, not an error and not a wrong
    value. *)
Theorem get_after_set_hit_otherwise_miss (self : Client) (st : Store) (k : string) :
  (forall (v : pyobj) (other : Client),
      current other = current self -> key_hasher other = key_hasher self ->
      let '(self1, st1) := set self st k v 0 0 in
      fst (get self1 st1 k) = hit v /\ fst (get other st1 k) = hit v)
  /\ (entries st !! physical_key self k = None -> fst (get self st k) = miss)
  /\ (forall (qk : string) (v : pyobj),
        entries st !! physical_key self k = Some (PyTuple [PyStr qk; v]) ->
        qk <> _qualified_key self k ->
        fst (get self st k) = miss).
Proof.
  split; [|split].
  - intros v other Hc Hh.
    pose proof (set_client self st k v 0 0) as Hself.
    pose proof (get_set_same_generation self other st k v Hc Hh) as Hother.
    destruct (client_fields self) as (_ & Hh1 & _ & Hc1). rewrite <- Hself in Hh1, Hc1.
    pose proof (get_set_same_generation self _ st k v Hc1 Hh1) as Hown.
    destruct (set self st k v 0 0) as [self1 st1]; simpl in *. now split.
  - intros Hnone. now rewrite get_result, Hnone.
  - intros qk v Hsome Hne. rewrite get_result, Hsome; simpl.
    destruct (String.eqb_spec qk (_qualified_key self k)); [contradiction | reflexivity].
Qed.

(** C2. After [flush(hard=False)], [get] of every key set before the flush
    returns the miss sentinel, while the flush sends nothing to the store:
    the entries and the traffic are what they were, and a client that still
    carries the old generation tag retrieves the value.  The tag is the
    answer of [uuid4().hex], new to the client and to the store. *)
Theorem soft_flush_hides_entries_keeps_store (self : Client) (st : Store)
    (k : string) (v : pyobj) (uuid4_hex : string) :
  colon_free (current self) = true ->
  colon_free (soft_tag self uuid4_hex) = true ->
  soft_tag self uuid4_hex <> current self ->
  generation_unused (soft_tag self uuid4_hex) st ->
  let '(self1, st1) := set self st k v 0 0 in
  let '(self2, st2) := flush self1 st1 false uuid4_hex in
  entries st2 = entries st1
  /\ traffic st2 = traffic st1
  /\ entries st2 !! physical_key self k
       = Some (PyTuple [PyStr (_qualified_key self k); v])
  /\ (forall k' : string, fst (get self2 st2 k') = miss)
  /\ (forall old : Client,
        current old = current self -> key_hasher old = key_hasher self ->
        fst (get old st2 k) = hit v).
Proof.
  intros Hcur Htag Hne Hun.
  pose proof (set_client self st k v 0 0) as Hself.
  pose proof (set_store self st k v 0 0) as Hst.
  pose proof (generation_unused_set self st k v 0 0 _ Hcur Htag Hne Hun) as Hun1.
  pose proof (fun old => get_set_same_generation self old st k v) as Hold.
  destruct (client_fields self) as (_ & _ & Hdbg & _).
  destruct (set self st k v 0 0) as [self1 st1]; cbn [fst snd] in *.
  rewrite flush_soft.
  assert (Htag1 : soft_tag self1 uuid4_hex = soft_tag self uuid4_hex).
  { unfold soft_tag. now rewrite Hself, Hdbg. }
  assert (Hmiss : forall k' : string,
             fst (get (mkClient (servers self1) (key_hasher self1) (_client self1)
                                (debug self1) (soft_tag self1 uuid4_hex)) st1 k')
             = miss).
  { intros k'. apply get_miss_unused; simpl. now rewrite Htag1. }
  repeat split; auto.
  rewrite Hst; simpl. apply lookup_insert_eq.
Qed.

(** C3. The physical key the key hasher of a client produces is never
    longer than [SERVER_MAX_KEY_LENGTH], however long the qualified key:
    without debug it is the 32 characters of an MD5 hex digest, which need
    the limit to be at least 32; with debug it is the 16-digit prefix and
    the qualified key, cut at the limit before the runs of characters
    outside [0-9a-zA-Z] become underscores. *)
Theorem physical_key_within_limit (servers : string + list string) (dbg : bool)
    (qualified : string) :
  (dbg = false -> 32 <= SERVER_MAX_KEY_LENGTH) ->
  String.length (key_hasher (__init__ servers dbg) qualified) <= SERVER_MAX_KEY_LENGTH.
Proof.
  intros Hlimit. destruct dbg; cbn [__init__ key_hasher].
  - apply length_debug_key_hash.
  - rewrite length_key_hash. now apply Hlimit.
Qed.

(** ** Further properties of the client *)

Lemma collapse_single_underscores (in_run : bool) (s : string) :
  single_underscores in_run (collapse in_run s) = true.
Proof.
  revert in_run; induction s as [|c s IH]; intros in_run; simpl; [reflexivity|].
  destruct (is_alnum c) eqn:Hc; simpl.
  - destruct (Ascii.eqb_spec c "_") as [->|_]; [discriminate Hc | apply IH].
  - destruct in_run; simpl; apply IH.
Qed.

Lemma all_hex_key_chars (s : string) : all_hex s = true -> key_chars s = true.
Proof.
  induction s as [|c s IH]; simpl; [reflexivity|].
  intros H. apply andb_prop in H as [Hc Hs]. rewrite (IH Hs), andb_true_r.
  apply orb_true_intro; left. unfold is_hex_digit in Hc; unfold is_alnum.
  destruct (nat_of_ascii c) as [|n]; [discriminate|].
  repeat match goal with
         | H : context [(_ <=? _)%nat] |- _ => revert H
         end.
  rewrite !orb_true_iff, !andb_true_iff, !Nat.leb_le. lia.
Qed.

Lemma all_hex_alnum_prefix (h rest : string) :
  all_hex h = true -> collapse false (h +:+ rest) = h +:+ collapse false rest.
Proof.
  induction h as [|c h IH]; simpl; [reflexivity|].
  intros H. apply andb_prop in H as [Hc Hh].
  assert (Ha : is_alnum c = true).
  { pose proof (all_hex_key_chars (String c "")) as K. simpl in K.
    rewrite Hc in K. specialize (K eq_refl). rewrite andb_true_r in K.
    apply orb_prop in K as [K|K]; [exact K|].
    apply Ascii.eqb_eq in K; subst c. discriminate Hc. }
  now rewrite Ha, (IH Hh).
Qed.

Lemma all_hex_prefix (n : nat) (s : string) :
  all_hex s = true -> all_hex (substring 0 n s) = true.
Proof.
  revert s; induction n as [|n IH]; intros [|c s]; simpl; try reflexivity.
  intros H. apply andb_prop in H as [-> Hs]. now apply IH.
Qed.

Lemma length_prefix (n : nat) (s : string) :
  n <= String.length s -> String.length (substring 0 n s) = n.
Proof.
  revert s; induction n as [|n IH]; intros [|c s]; simpl; try lia.
  intros H. rewrite IH; lia.
Qed.

Lemma prefix_app (n : nat) (a b : string) :
  String.length a <= n -> substring 0 n (a +:+ b) = a +:+ substring 0 (n - String.length a) b.
Proof.
  revert n; induction a as [|c a IH]; intros n; simpl.
  - now rewrite Nat.sub_0_r.
  - destruct n as [|n]; [lia|]. intros H. simpl. rewrite IH by lia. reflexivity.
Qed.

Lemma prefix_exact (a b : string) : substring 0 (String.length a) (a +:+ b) = a.
Proof.
  induction a as [|c a IH]; simpl; [now destruct b | now rewrite IH].
Qed.

(** X1. [get] returns a value exactly when the entry at the physical key is
    the pair of this lookup's qualified key and that value.  Whatever else
    sits there (a bare value, a list, a longer tuple, a pair under another
    key) is a miss. *)
Theorem get_hit_exactly (self : Client) (st : Store) (k : string) (v : pyobj) :
  fst (get self st k) = hit v <->
  entries st !! physical_key self k
    = Some (PyTuple [PyStr (_qualified_key self k); v]).
Proof.
  rewrite get_result. split.
  - destruct (entries st !! _) as [[| | | |[|key_ [|r [|? ?]]]|]|];
      try discriminate.
    destruct key_ as [| | |s| |]; simpl; try discriminate.
    destruct (String.eqb_spec s (_qualified_key self k)) as [->|_];
      [|discriminate].
    now intros [= ->].
  - intros ->. simpl. now rewrite String.eqb_refl.
Qed.


(** X3. After [delete(k)], [get(k)] misses through every handle of the same
    generation and hasher, and the store has received one delete command
    for the physical key, whether or not an entry was there. *)
Theorem delete_then_miss (self other : Client) (st : Store) (k : string) :
  current other = current self -> key_hasher other = key_hasher self ->
  fst (get other (snd (delete self st k)) k) = miss
  /\ traffic (snd (delete self st k))
       = (traffic st ++ [CmdDelete (physical_key self k)])%list.
Proof.
  intros Hc Hh. rewrite delete_store; simpl. split; [|reflexivity].
  rewrite get_result; simpl.
  destruct (same_physical_key self other k Hc Hh) as [_ ->].
  now rewrite lookup_delete_eq.
Qed.


(** X5. [delete(k)] takes away whatever sits at the physical key of [k]: a
    lookup of any key with that physical key misses afterwards, and a lookup
    of a key with another physical key is what it was before. *)
Theorem delete_other_key (self : Client) (st : Store) (k k' : string) :
  fst (get self (snd (delete self st k)) k') =
    if decide (physical_key self k' = physical_key self k) then miss
    else fst (get self st k').
Proof.
  rewrite !get_result, delete_store; simpl.
  destruct (decide (physical_key self k' = physical_key self k)) as [E|E].
  - now rewrite E, lookup_delete_eq.
  - rewrite lookup_delete_ne by (intros E'; now apply E). reflexivity.
Qed.

(** X6. After [flush(hard=True)] the store is empty, so every lookup misses,
    through any client and under any generation tag.  The store has
    received a flush-all and then a stats reset, and the tag of the client
    is what it was. *)
Theorem hard_flush_empties_store (self other : Client) (st : Store)
    (uuid4_hex k : string) :
  entries (snd (flush self st true uuid4_hex)) = ∅
  /\ fst (get other (snd (flush self st true uuid4_hex)) k) = miss
  /\ traffic (snd (flush self st true uuid4_hex))
       = (traffic st ++ [CmdFlushAll; CmdStats (Some "reset")])%list
  /\ current (fst (flush self st true uuid4_hex)) = current self.
Proof.
  rewrite flush_hard_store; simpl. repeat split.
  - rewrite get_result; simpl. now rewrite lookup_empty.
  - unfold flush, reset_stats, _get_stats, client.
    destruct self as [sv kh [cl|] dbg cur]; reflexivity.
Qed.

Lemma get_client (self : Client) (st : Store) (k : string) :
  fst (snd (get self st k)) = snd (client self).
Proof.
  unfold get, client, Client_.get.
  destruct (_client self); simpl;
    destruct (default PyNone _) as [| | | |[|? [|? [|? ?]]]|]; simpl;
    try reflexivity; destruct (py_eq_str _ _); reflexivity.
Qed.

Lemma delete_client (self : Client) (st : Store) (k : string) :
  fst (delete self st k) = snd (client self).
Proof. unfold delete; destruct (client self); reflexivity. Qed.

Lemma get_stats_client (self : Client) (st : Store) (stat_args : option string) :
  fst (_get_stats self st stat_args) = snd (client self)
  /\ entries (snd (_get_stats self st stat_args)) = entries st.
Proof. unfold _get_stats; destruct (client self); split; reflexivity. Qed.

Lemma flush_hard_client (self : Client) (st : Store) (uuid4_hex : string) :
  fst (flush self st true uuid4_hex) = snd (client self).
Proof.
  unfold flush, reset_stats, _get_stats, client.
  destruct self as [sv kh [cl|] dbg cur]; reflexivity.
Qed.

Lemma client_same_configuration (self : Client) :
  same_configuration (snd (client self)) self
  /\ current (snd (client self)) = current self.
Proof. destruct (client_fields self) as (? & ? & ? & ?). now repeat split. Qed.

Lemma client_connected (self : Client) :
  connection_ok self ->
  _client (snd (client self)) = Some (Client_.connect (servers self)).
Proof. unfold client. intros [E|E]; rewrite E; simpl; [reflexivity | exact E]. Qed.

(** X7. No method but a soft flush changes the generation tag, and no method
    at all changes the servers, the key hasher or the debug flag of a
    client.  A soft flush installs the answer of [uuid4().hex], with
    ["flushed"] in front in debug mode. *)
Theorem only_soft_flush_changes_tag (self : Client) (st : Store) (k : string)
    (v : pyobj) (t m : Z) (uuid4_hex : string) :
  (same_configuration (fst (set self st k v t m)) self
   /\ current (fst (set self st k v t m)) = current self)
  /\ (same_configuration (fst (snd (get self st k))) self
      /\ current (fst (snd (get self st k))) = current self)
  /\ (same_configuration (fst (delete self st k)) self
      /\ current (fst (delete self st k)) = current self)
  /\ (same_configuration (fst (get_stats self st)) self
      /\ current (fst (get_stats self st)) = current self)
  /\ (same_configuration (fst (reset_stats self st)) self
      /\ current (fst (reset_stats self st)) = current self)
  /\ (same_configuration (fst (flush self st true uuid4_hex)) self
      /\ current (fst (flush self st true uuid4_hex)) = current self)
  /\ (same_configuration (fst (flush self st false uuid4_hex)) self
      /\ current (fst (flush self st false uuid4_hex))
           = if debug self then "flushed" +:+ uuid4_hex else uuid4_hex).
Proof.
  rewrite set_client, get_client, delete_client, flush_hard_client.
  unfold get_stats, reset_stats.
  rewrite (proj1 (get_stats_client self st None)).
  rewrite (proj1 (get_stats_client self st (Some "reset"))).
  pose proof (client_same_configuration self) as H.
  repeat (split; [exact H|]). split; [|reflexivity]. now repeat split.
Qed.

(** X8. The native client is made on first use and kept: a client that has
    none, or has the one for its servers, has the one for its servers after
    [set], [get], [delete], [get_stats], [reset_stats] or a hard flush.  A
    soft flush does not make one. *)
Theorem native_client_on_first_use (self : Client) (st : Store) (k : string)
    (v : pyobj) (t m : Z) (uuid4_hex : string) :
  connection_ok self ->
  _client (fst (set self st k v t m)) = Some (Client_.connect (servers self))
  /\ _client (fst (snd (get self st k))) = Some (Client_.connect (servers self))
  /\ _client (fst (delete self st k)) = Some (Client_.connect (servers self))
  /\ _client (fst (get_stats self st)) = Some (Client_.connect (servers self))
  /\ _client (fst (reset_stats self st)) = Some (Client_.connect (servers self))
  /\ _client (fst (flush self st true uuid4_hex))
       = Some (Client_.connect (servers self))
  /\ _client (fst (flush self st false uuid4_hex)) = _client self.
Proof.
  intros Hok. rewrite set_client, get_client, delete_client, flush_hard_client.
  unfold get_stats, reset_stats.
  rewrite (proj1 (get_stats_client self st None)).
  rewrite (proj1 (get_stats_client self st (Some "reset"))).
  pose proof (client_connected self Hok) as H.
  repeat (split; [exact H|]). reflexivity.
Qed.

(** X9. [_key_hash] answers 32 lowercase hexadecimal digits for every key,
    the empty one included: a key made of letters and digits only. *)
Theorem key_hash_shape (key : string) :
  String.length (_key_hash key) = 32
  /\ all_hex (_key_hash key) = true
  /\ key_chars (_key_hash key) = true.
Proof.
  destruct (key_hash_hex key) as [Hlen Hhex].
  repeat split; auto. now apply all_hex_key_chars.
Qed.

(** X10. [_debug_key_hash] answers letters, digits and underscores only,
    never two underscores in a row, and, when the limit leaves room for
    them, starts with the first 16 digits of the MD5 hex digest of the
    key. *)
Theorem debug_key_hash_shape (key : string) :
  key_chars (_debug_key_hash key) = true
  /\ single_underscores false (_debug_key_hash key) = true
  /\ (16 <= SERVER_MAX_KEY_LENGTH ->
      substring 0 16 (_debug_key_hash key) = substring 0 16 (_key_hash key)).
Proof.
  split; [apply collapse_key_chars|]. split; [apply collapse_single_underscores|].
  intros Hlimit. unfold _debug_key_hash, re_sub_nonalnum.
  destruct (key_hash_hex key) as [Hlen Hhex].
  set (h := substring 0 16 (_key_hash key)).
  assert (Hh : String.length h = 16) by (apply length_prefix; lia).
  assert (Hx : all_hex h = true) by now apply all_hex_prefix.
  rewrite prefix_app by lia. rewrite all_hex_alnum_prefix by exact Hx.
  rewrite <- Hh at 1. apply prefix_exact.
Qed.

(** X11. A client is false exactly when it was built from an empty list of
    servers; built from one URI string, even an empty one, it is true. *)
Theorem nonzero_iff_servers (servers : string + list string) (dbg : bool) :
  __nonzero__ (__init__ servers dbg) = false <-> servers = inr [].
Proof.
  unfold __nonzero__, __init__; simpl. destruct servers as [uri|[|u us]]; simpl;
    split; intros H; try reflexivity; discriminate.
Qed.

(** X12. Lookups and statistics requests leave the stored entries as they
    are: [get] adds one get command for the physical key to the traffic and
    nothing else, [get_stats] and [reset_stats] one stats command each. *)
Theorem reads_keep_entries (self : Client) (st : Store) (k : string) :
  snd (snd (get self st k))
    = mkStore (entries st) (traffic st ++ [CmdGet (physical_key self k)])
  /\ snd (get_stats self st)
       = mkStore (entries st) (traffic st ++ [CmdStats None])
  /\ snd (reset_stats self st)
       = mkStore (entries st) (traffic st ++ [CmdStats (Some "reset")]).
Proof.
  split; [apply get_store|].
  unfold get_stats, reset_stats, _get_stats, client.
  destruct (_client self); split; reflexivity.
Qed.

(** ** The memoization decorator *)

Lemma made_client_keys (self : Client) (k : string) :
  physical_key (snd (client self)) k = physical_key self k
  /\ _qualified_key (snd (client self)) k = _qualified_key self k.
Proof.
  destruct (client_fields self) as (_ & Hh & _ & Hc).
  destruct (same_physical_key self (snd (client self)) k Hc Hh). now split.
Qed.

Section DecoratorFacts.

Variable W : Type.
Variable default_key : arguments -> string.
Variable servers : string + list string.
Variable key : option (arguments -> string).
Variable from_cache : option (pyobj -> arguments -> pyobj).
Variable to_cache : option (pyobj -> arguments -> pyobj).
Variable time : Z.
Variable min_compress_len : Z.
Variable func : arguments -> W -> returned * W.

Local Abbreviation wrapped :=
  (wrapper W default_key servers key from_cache to_cache time min_compress_len func).
Local Abbreviation key_of := (cache_key default_key key).
Local Abbreviation decode := (default identity from_cache).
Local Abbreviation encode := (default identity to_cache).

(** [wrapper] with caching on, by the answer of [get] and of [func]. *)
Lemma wrapper_enabled (args : arguments) (own : Client) (st : Store) (w : W) :
  servers_truth servers = true ->
  wrapped args own st w =
    let looked := get own st (key_of args) in
    match fst looked with
    | hit v => (Value (decode v args), (fst (snd looked), snd (snd looked), w))
    | miss =>
        let ran := func args w in
        match fst ran with
        | DoNotCache r => (Value r, (fst (snd looked), snd (snd looked), snd ran))
        | Value r =>
            let stored :=
              set (fst (snd looked)) (snd (snd looked)) (key_of args)
                  (encode r args) time min_compress_len in
            (Value r, (fst stored, snd stored, snd ran))
        end
    end.
Proof.
  intros Hon. unfold wrapper. rewrite Hon. cbv zeta.
  destruct (get own st (key_of args)) as [[|v] [client1 st1]]; simpl;
    [|reflexivity].
  destruct (func args w) as [[r|r] w1]; simpl; [|reflexivity].
  destruct (set client1 st1 _ _ time min_compress_len); reflexivity.
Qed.


(** X14. On a miss the wrapper runs the function once and, for a plain
    result, answers that result as it is, while the store receives the
    result as [to_cache] translated it, paired with the qualified key, with
    the expiry and compression threshold the decorator was given: one get
    and one set, nothing else. *)
Theorem wrapper_miss_stores (args : arguments) (own : Client) (st : Store)
    (w : W) (r : pyobj) :
  servers_truth servers = true ->
  fst (get own st (key_of args)) = miss ->
  fst (func args w) = Value r ->
  let '(result, (client1, st1, w1)) := wrapped args own st w in
  result = Value r
  /\ w1 = snd (func args w)
  /\ entries st1
       = <[physical_key own (key_of args)
           := PyTuple [PyStr (_qualified_key own (key_of args)); encode r args]]>
           (entries st)
  /\ traffic st1
       = (traffic st ++
          [CmdGet (physical_key own (key_of args));
           CmdSet (physical_key own (key_of args))
                  (PyTuple [PyStr (_qualified_key own (key_of args));
                            encode r args])
                  time min_compress_len])%list.
Proof.
  intros Hon Hmiss Hran. rewrite wrapper_enabled by exact Hon. cbv zeta.
  rewrite Hmiss, Hran, get_client, get_store, set_store.
  destruct (made_client_keys own (key_of args)) as [-> ->]. simpl.
  repeat split. now rewrite <- List.app_assoc.
Qed.

(** X15. A call that missed and cached a plain result makes the next call
    under the same cache key a hit: the function does not run again (its
    world is as the first call left it), nothing is written, and the answer
    is the stored value as [from_cache] translates it for the new
    arguments; with no translators it is the first result itself.  The
    entry was stored to stay ([time] is 0). *)
Theorem wrapper_second_call_hits (args args2 : arguments) (own : Client)
    (st : Store) (w : W) (r : pyobj) :
  servers_truth servers = true ->
  time = 0%Z ->
  fst (get own st (key_of args)) = miss ->
  fst (func args w) = Value r ->
  key_of args2 = key_of args ->
  let '(result1, (client1, st1, w1)) := wrapped args own st w in
  let '(result2, (client2, st2, w2)) := wrapped args2 client1 st1 w1 in
  result2 = Value (decode (encode r args) args2)
  /\ (from_cache = None -> to_cache = None -> result2 = result1)
  /\ w2 = w1
  /\ entries st2 = entries st1.
Proof.
  intros Hon _ Hmiss Hran Hkey.
  rewrite (wrapper_enabled args) by exact Hon. cbv zeta.
  rewrite Hmiss, Hran, get_client, get_store, set_client.
  set (st1 := snd (set _ _ _ _ _ _)).
  rewrite (wrapper_enabled args2) by exact Hon. cbv zeta. rewrite Hkey.
  assert (Hhit : fst (get (snd (client (snd (client own)))) st1
                          (key_of args)) = hit (encode r args)).
  { apply get_hit_iff. unfold st1. rewrite set_store; simpl.
    destruct (made_client_keys (snd (client own)) (key_of args))
      as [-> ->].
    apply lookup_insert_eq. }
  rewrite Hhit, get_store. simpl. repeat split.
  intros -> ->. reflexivity.
Qed.

(** X16. A result inside [DoNotCache] is answered unwrapped and never
    stored: the store receives the get and nothing else, its entries are
    what they were, and the next call under that key misses again and runs
    the function again. *)
Theorem wrapper_do_not_cache (args : arguments) (own : Client) (st : Store)
    (w : W) (r : pyobj) :
  servers_truth servers = true ->
  fst (get own st (key_of args)) = miss ->
  fst (func args w) = DoNotCache r ->
  let '(result, (client1, st1, w1)) := wrapped args own st w in
  result = Value r
  /\ w1 = snd (func args w)
  /\ entries st1 = entries st
  /\ traffic st1 = (traffic st ++ [CmdGet (physical_key own (key_of args))])%list
  /\ fst (get client1 st1 (key_of args)) = miss
  /\ fst (wrapped args client1 st1 w1) = Value (unwrapped (fst (func args w1)))
  /\ snd (snd (wrapped args client1 st1 w1)) = snd (func args w1).
Proof.
  intros Hon Hmiss Hran. rewrite wrapper_enabled by exact Hon. cbv zeta.
  rewrite Hmiss, Hran, get_client, get_store.
  assert (Hagain : fst (get (snd (client own))
                           (mkStore (entries st)
                              (traffic st ++ [CmdGet (physical_key own (key_of args))]))
                           (key_of args)) = miss).
  { rewrite get_result in Hmiss |- *; simpl.
    destruct (made_client_keys own (key_of args)) as [-> ->]. exact Hmiss. }
  repeat split; try exact Hagain.
  - rewrite wrapper_enabled by exact Hon. cbv zeta. rewrite Hagain.
    now destruct (fst (func args (snd (func args w)))).
  - rewrite wrapper_enabled by exact Hon. cbv zeta. rewrite Hagain.
    now destruct (fst (func args (snd (func args w)))).
Qed.

(** Whatever path a call takes, the client keeps its tag and debug flag
    and the store gets no entry under a tag the client does not carry. *)
Lemma wrapper_keeps_generation (args : arguments) (own : Client) (st : Store)
    (w : W) (tag : string) :
  colon_free (current own) = true -> colon_free tag = true ->
  tag <> current own ->
  generation_unused tag st ->
  current (fst (fst (snd (wrapped args own st w)))) = current own
  /\ debug (fst (fst (snd (wrapped args own st w)))) = debug own
  /\ generation_unused tag (snd (fst (snd (wrapped args own st w)))).
Proof.
  intros Hcur Htag Hne Hun.
  destruct (client_fields own) as (_ & _ & Hd & Hc).
  pose proof (generation_unused_get own st (key_of args) tag Hun) as Hun1.
  destruct (servers_truth servers) eqn:Hon.
  - rewrite wrapper_enabled by exact Hon. cbv zeta.
    destruct (fst (get own st (key_of args))) as [|v]; cbn [fst snd];
      [|rewrite get_client; auto].
    destruct (fst (func args w)) as [r|r]; cbn [fst snd];
      [|rewrite get_client; auto].
    rewrite set_client, get_client.
    destruct (client_fields (snd (client own))) as (_ & _ & Hd2 & Hc2).
    rewrite Hd2, Hc2. repeat split; auto.
    apply generation_unused_set; auto; congruence.
  - unfold wrapper. rewrite Hon. destruct (func args w). simpl. auto.
Qed.

(** X17. After [forget()] the next call runs the function again, also for
    arguments whose result the call before has just cached: [forget] sends
    nothing to the store, and under the new tag every key misses.  The new
    tag is the answer of [uuid4().hex]: it holds no colon, differs from the
    current one, and no entry of the store was written under it. *)
Theorem forget_recomputes (args args2 : arguments) (own : Client) (st : Store)
    (w : W) (uuid4_hex : string) :
  servers_truth servers = true ->
  colon_free (current own) = true ->
  colon_free (soft_tag own uuid4_hex) = true ->
  soft_tag own uuid4_hex <> current own ->
  generation_unused (soft_tag own uuid4_hex) st ->
  let '(result1, (client1, st1, w1)) := wrapped args own st w in
  let '(client2, st2) := forget client1 st1 uuid4_hex in
  st2 = st1
  /\ fst (wrapped args2 client2 st2 w1) = Value (unwrapped (fst (func args2 w1)))
  /\ snd (snd (wrapped args2 client2 st2 w1)) = snd (func args2 w1).
Proof.
  intros Hon Hcur Htag Hne Hun.
  destruct (wrapper_keeps_generation args own st w _ Hcur Htag Hne Hun)
    as (Hc & Hd & Hun1).
  destruct (wrapped args own st w) as [result1 [[client1 st1] w1]].
  cbn [fst snd] in *. unfold forget. rewrite flush_soft.
  split; [reflexivity|].
  rewrite wrapper_enabled by exact Hon. cbv zeta.
  rewrite get_miss_unused.
  - destruct (fst (func args2 w1)) as [r|r]; simpl; auto.
  - simpl. unfold soft_tag in *. now rewrite Hd.
Qed.

End DecoratorFacts.

End Client.

(** ** The claims at concrete inputs

    Release ["2.0.31"], a limit of 250 characters, one server. *)

Lemma get_after_set_hit_otherwise_miss_witness :
  fst (get "2.0.31"
         (fst (set "2.0.31" (__init__ 250 (inl "127.0.0.1:11211") false)
                   empty_store "k" PyNone 0 0))
         (snd (set "2.0.31" (__init__ 250 (inl "127.0.0.1:11211") false)
                   empty_store "k" PyNone 0 0))
         "k") = hit PyNone
  /\ fst (get "2.0.31" (__init__ 250 (inl "127.0.0.1:11211") false)
              empty_store "k") = miss
  /\ fst (get "2.0.31" (__init__ 250 (inl "127.0.0.1:11211") false)
              (mkStore
                 {[ physical_key "2.0.31"
                      (__init__ 250 (inl "127.0.0.1:11211") false) "k"
                    := PyTuple [PyStr "2.0.31::j"; PyInt 7] ]} [])
              "k") = miss.
Proof.
  split; [|split].
  - pose proof (proj1 (get_after_set_hit_otherwise_miss "2.0.31"
                         (__init__ 250 (inl "127.0.0.1:11211") false)
                         empty_store "k")
                  PyNone (__init__ 250 (inl "127.0.0.1:11211") false)
                  eq_refl eq_refl) as H.
    destruct (set "2.0.31" _ empty_store "k" PyNone 0 0) as [self1 st1].
    exact (proj1 H).
  - apply (proj1 (proj2 (get_after_set_hit_otherwise_miss "2.0.31"
                           (__init__ 250 (inl "127.0.0.1:11211") false)
                           empty_store "k"))).
    reflexivity.
  - apply (proj2 (proj2 (get_after_set_hit_otherwise_miss "2.0.31"
                           (__init__ 250 (inl "127.0.0.1:11211") false)
                           (mkStore
                              {[ physical_key "2.0.31"
                                   (__init__ 250 (inl "127.0.0.1:11211") false) "k"
                                 := PyTuple [PyStr "2.0.31::j"; PyInt 7] ]} [])
                           "k"))
             "2.0.31::j" (PyInt 7)).
    + apply lookup_singleton_eq.
    + vm_compute. discriminate.
Defined.

Lemma soft_flush_hides_entries_keeps_store_witness :
  let '(self1, st1) :=
    set "2.0.31" (__init__ 250 (inl "127.0.0.1:11211") false)
        empty_store "k" PyNone 0 0 in
  let '(self2, st2) := flush self1 st1 false "0f8fad5bd9cb469fa16570867728950e" in
  entries st2 = entries st1
  /\ traffic st2 = traffic st1
  /\ entries st2 !! physical_key "2.0.31"
                      (__init__ 250 (inl "127.0.0.1:11211") false) "k"
       = Some (PyTuple
                 [PyStr (_qualified_key "2.0.31"
                           (__init__ 250 (inl "127.0.0.1:11211") false) "k");
                  PyNone])
  /\ (forall k' : string, fst (get "2.0.31" self2 st2 k') = miss)
  /\ (forall old : Client,
        current old = current (__init__ 250 (inl "127.0.0.1:11211") false) ->
        key_hasher old = key_hasher (__init__ 250 (inl "127.0.0.1:11211") false) ->
        fst (get "2.0.31" old st2 "k") = hit PyNone).
Proof.
  apply (soft_flush_hides_entries_keeps_store "2.0.31"
           (__init__ 250 (inl "127.0.0.1:11211") false) empty_store "k" PyNone
           "0f8fad5bd9cb469fa16570867728950e").
  - reflexivity.
  - reflexivity.
  - simpl. discriminate.
  - intros pk k v. simpl. rewrite lookup_empty. discriminate.
Defined.

Lemma physical_key_within_limit_witness :
  (false = false -> 32 <= 250)
  /\ String.length
       (key_hasher (__init__ 250 (inl "127.0.0.1:11211") false)
          (string_of_list_ascii (repeat "a"%char 300))) <= 250.
Proof.
  split.
  - intros _. lia.
  - apply (physical_key_within_limit 250 (inl "127.0.0.1:11211") false).
    intros _. lia.
Defined.

(** ** The further properties at concrete inputs

    The same release, limit and server; a function that counts its calls in
    its world and answers 42. *)

Local Abbreviation release := "2.0.31".
Local Abbreviation one_server := (inl "127.0.0.1:11211" : string + list string).
Local Abbreviation new_client := (__init__ 250 one_server false).
Local Abbreviation no_arguments := (mkArguments [] ∅).
Local Abbreviation plain_42 :=
  (fun (_ : arguments) (calls : nat) => (Value (PyInt 42), S calls)).
Local Abbreviation uncached_42 :=
  (fun (_ : arguments) (calls : nat) => (DoNotCache (PyInt 42), S calls)).
Local Abbreviation memoized servers func :=
  (wrapper release nat (fun _ => "('pkg.mod.f', (), ())") servers None None None 0 0 func).
Local Abbreviation a_uuid := "0f8fad5bd9cb469fa16570867728950e".

Lemma get_hit_exactly_witness :
  fst (get release new_client
           (mkStore {[ physical_key release new_client "k"
                       := PyTuple [PyStr (_qualified_key release new_client "k");
                                   PyNone] ]} [])
           "k") = hit PyNone.
Proof.
  apply (proj2 (get_hit_exactly release new_client _ "k" PyNone)).
  apply lookup_singleton_eq.
Defined.


Lemma delete_then_miss_witness :
  fst (get release new_client
           (snd (delete release new_client
                        (snd (set release new_client empty_store "k" PyNone 0 0)) "k"))
           "k") = miss.
Proof.
  apply (proj1 (delete_then_miss release new_client new_client
                  (snd (set release new_client empty_store "k" PyNone 0 0)) "k"
                  eq_refl eq_refl)).
Defined.


Lemma native_client_on_first_use_witness :
  _client new_client = None
  /\ _client (fst (set release new_client empty_store "k" PyNone 0 0))
       = Some (Client_.connect ["127.0.0.1:11211"])
  /\ _client (fst (flush new_client empty_store false a_uuid)) = None.
Proof.
  pose proof (native_client_on_first_use release new_client empty_store "k" PyNone
                0 0 a_uuid (or_introl eq_refl)) as H.
  split; [reflexivity|]. split; [apply H | apply H].
Defined.

Lemma debug_key_hash_shape_witness :
  16 <= 250
  /\ substring 0 16 (_debug_key_hash 250 (string_of_list_ascii (repeat "a"%char 300)))
     = substring 0 16 (_key_hash (string_of_list_ascii (repeat "a"%char 300))).
Proof.
  split; [lia|].
  apply (proj2 (proj2 (debug_key_hash_shape 250
                         (string_of_list_ascii (repeat "a"%char 300))))).
  lia.
Defined.

Lemma nonzero_iff_servers_witness :
  __nonzero__ (__init__ 250 (inr []) false) = false.
Proof. apply (proj2 (nonzero_iff_servers 250 (inr []) false)). reflexivity. Defined.


Lemma wrapper_miss_stores_witness :
  let '(result, (client1, st1, w1)) :=
    memoized one_server plain_42 no_arguments new_client empty_store 0 in
  result = Value (PyInt 42)
  /\ w1 = 1
  /\ entries st1
       = <[physical_key release new_client "('pkg.mod.f', (), ())"
           := PyTuple [PyStr (_qualified_key release new_client
                                "('pkg.mod.f', (), ())");
                       PyInt 42]]> ∅
  /\ traffic st1
       = [CmdGet (physical_key release new_client "('pkg.mod.f', (), ())");
          CmdSet (physical_key release new_client "('pkg.mod.f', (), ())")
                 (PyTuple [PyStr (_qualified_key release new_client
                                    "('pkg.mod.f', (), ())");
                           PyInt 42])
                 0 0].
Proof.
  assert (Hmiss : fst (get release new_client empty_store "('pkg.mod.f', (), ())")
                  = miss) by (vm_compute; reflexivity).
  pose proof (wrapper_miss_stores release nat (fun _ => "('pkg.mod.f', (), ())")
                one_server None None None 0 0 plain_42 no_arguments new_client
                empty_store 0 (PyInt 42) eq_refl Hmiss eq_refl) as H.
  vm_compute in H. vm_compute. exact H.
Defined.

Lemma wrapper_second_call_hits_witness :
  let '(result1, (client1, st1, w1)) :=
    memoized one_server plain_42 no_arguments new_client empty_store 0 in
  let '(result2, (client2, st2, w2)) :=
    memoized one_server plain_42 no_arguments client1 st1 w1 in
  result2 = Value (PyInt 42)
  /\ (@None (pyobj -> arguments -> pyobj) = None ->
      @None (pyobj -> arguments -> pyobj) = None -> result2 = result1)
  /\ w2 = w1
  /\ entries st2 = entries st1.
Proof.
  assert (Hmiss : fst (get release new_client empty_store "('pkg.mod.f', (), ())")
                  = miss) by (vm_compute; reflexivity).
  pose proof (wrapper_second_call_hits release nat
                (fun _ => "('pkg.mod.f', (), ())") one_server None None None 0 0
                plain_42 no_arguments no_arguments new_client empty_store 0
                (PyInt 42) eq_refl eq_refl Hmiss eq_refl eq_refl) as H.
  vm_compute in H. vm_compute. exact H.
Defined.

Lemma wrapper_do_not_cache_witness :
  let '(result, (client1, st1, w1)) :=
    memoized one_server uncached_42 no_arguments new_client empty_store 0 in
  result = Value (PyInt 42)
  /\ w1 = 1
  /\ entries st1 = ∅
  /\ traffic st1 = [CmdGet (physical_key release new_client "('pkg.mod.f', (), ())")]
  /\ fst (get release client1 st1 "('pkg.mod.f', (), ())") = miss
  /\ fst (memoized one_server uncached_42 no_arguments client1 st1 w1)
       = Value (PyInt 42)
  /\ snd (snd (memoized one_server uncached_42 no_arguments client1 st1 w1)) = 2.
Proof.
  assert (Hmiss : fst (get release new_client empty_store "('pkg.mod.f', (), ())")
                  = miss) by (vm_compute; reflexivity).
  pose proof (wrapper_do_not_cache release nat (fun _ => "('pkg.mod.f', (), ())")
                one_server None None None 0 0 uncached_42 no_arguments new_client
                empty_store 0 (PyInt 42) eq_refl Hmiss eq_refl) as H.
  vm_compute in H. vm_compute. exact H.
Defined.

Lemma forget_recomputes_witness :
  let '(result1, (client1, st1, w1)) :=
    memoized one_server plain_42 no_arguments new_client empty_store 0 in
  let '(client2, st2) := forget client1 st1 a_uuid in
  st2 = st1
  /\ fst (memoized one_server plain_42 no_arguments client2 st2 w1)
       = Value (PyInt 42)
  /\ snd (snd (memoized one_server plain_42 no_arguments client2 st2 w1)) = 2.
Proof.
  assert (Hne : soft_tag new_client a_uuid <> current new_client)
    by (simpl; discriminate).
  assert (Hun : generation_unused release (soft_tag new_client a_uuid) empty_store).
  { intros pk k v. simpl. rewrite lookup_empty. discriminate. }
  pose proof (forget_recomputes release nat (fun _ => "('pkg.mod.f', (), ())")
                one_server None None None 0 0 plain_42 no_arguments no_arguments
                new_client empty_store 0 a_uuid eq_refl eq_refl eq_refl Hne Hun)
    as H.
  vm_compute in H. vm_compute. exact H.
Defined.

Lemma new_client_soft_flush_witness :
  let '(self1, st1) := set_all release new_client empty_store [("k", PyInt 1)] in
  let '(self2, st2) := flush self1 st1 false a_uuid in
  st2 = st1 /\ forall k : string, fst (get release self2 st2 k) = miss.
Proof.
  apply (new_client_soft_flush release 250 one_server false [("k", PyInt 1)] a_uuid).
  reflexivity.
Defined.

(** ** Computed examples *)

Example debug_key_of_long_key :
  String.length (string_of_list_ascii (repeat "a"%char 300)) = 300
  /\ String.length
       (key_hasher (__init__ 250 (inl "127.0.0.1:11211") true)
          (string_of_list_ascii (repeat "a"%char 300))) = 250
  /\ String.length
       (key_hasher (__init__ 250 (inl "127.0.0.1:11211") false)
          (string_of_list_ascii (repeat "a"%char 300))) = 32.
Proof. vm_compute. auto. Qed.

Example debug_key_readable :
  _debug_key_hash 250 "2.0::some key/with spaces"
  = "c859eb9f21b6021c_2_0_some_key_with_spaces".
Proof. vm_compute. reflexivity. Qed.

Example debug_key_cut_before_substitution :
  _debug_key_hash 20 "2.0::some key/with spaces" = "c859eb9f21b6021c_2_0".
Proof. vm_compute. reflexivity. Qed.

Example none_is_a_hit :
  let '(self1, st1) :=
    set "2.0.31" (__init__ 250 (inl "127.0.0.1:11211") true)
        empty_store "k" PyNone 0 0 in
  fst (get "2.0.31" self1 st1 "k") = hit PyNone
  /\ fst (get "2.0.31" self1 st1 "j") = miss.
Proof. vm_compute. auto. Qed.

Example soft_flush_in_debug_mode :
  let '(self1, st1) :=
    set "2.0.31" (__init__ 250 (inl "127.0.0.1:11211") true)
        empty_store "k" (PyInt 1) 0 0 in
  let '(self2, st2) := flush self1 st1 false "0f8fad5bd9cb469fa16570867728950e" in
  current self2 = "flushed0f8fad5bd9cb469fa16570867728950e"
  /\ fst (get "2.0.31" self2 st2 "k") = miss
  /\ fst (get "2.0.31" self1 st2 "k") = hit (PyInt 1)
  /\ traffic st2 =
       [CmdSet "fe50f63a02b6e8b1_2_0_31_k" (PyTuple [PyStr "2.0.31::k"; PyInt 1]) 0 0].
Proof. vm_compute. auto. Qed.

Example hard_flush_empties :
  let '(self1, st1) :=
    set "2.0.31" (__init__ 250 (inl "127.0.0.1:11211") false)
        empty_store "k" (PyInt 1) 0 0 in
  let '(self2, st2) := flush self1 st1 true "" in
  fst (get "2.0.31" self1 st2 "k") = miss
  /\ traffic st2 =
       [CmdSet "fe50f63a02b6e8b14cc4d01b195268e6" (PyTuple [PyStr "2.0.31::k"; PyInt 1]) 0 0;
        CmdFlushAll; CmdStats (Some "reset")].
Proof. vm_compute. auto. Qed.

End Memcached.

(** ** hashlib test vectors *)

Example md5_empty : MD5.hexdigest "" = "d41d8cd98f00b204e9800998ecf8427e".
Proof. vm_compute. reflexivity. Qed.

Example md5_abc : MD5.hexdigest "abc" = "900150983cd24fb0d6963f7d28e17f72".
Proof. vm_compute. reflexivity. Qed.

Example md5_one_block_exactly :
  MD5.hexdigest (string_of_list_ascii (repeat "a"%char 64))
  = "014842d480b571495a4a0363793f7367".
Proof. vm_compute. reflexivity. Qed.

Example md5_padding_spills :
  MD5.hexdigest (string_of_list_ascii (repeat "a"%char 56))
  = "3b0c8ac703f828b04c6c197006d17218".
Proof. vm_compute. reflexivity. Qed.

Example md5_many_blocks :
  MD5.hexdigest (string_of_list_ascii (repeat "a"%char 300))
  = "4e5475d125a33c6190718e75adc1b704".
Proof. vm_compute. reflexivity. Qed.

